(** * nvidia_ocr: the HTTP client of the NVIDIA OCR service

    A shallow embedding of [src/nvidia_ocr/client.py]: the [UploadedFile]
    dataclass, [FilesClient] and [nvOCR], with the calls made through
    [requests.Session] recorded on an explicit wire log.

    Python values are dynamically typed, so file payloads, documents and
    decoded JSON bodies live in one value type [pyval].  Methods are
    state transformers over the receiver object ([self]) and the list of
    requests issued so far; an exception leaves the state as it was when
    it was raised. *)

From Stdlib Require Import ZArith Ascii String.
From stdpp Require Import base option list strings gmap.

Local Open Scope Z_scope.
Local Open Scope string_scope.
Local Set Warnings "-register-all".

(** ** Python values *)

(** The values that reach the client: what [json.loads] produces (None,
    bool, int, float, str, list, dict with string keys) together with
    [bytes] and tuples, which callers put into the [file] mapping and
    the client puts into the [files=] argument.  A float is kept as
    mantissa and binary exponent; the client never inspects one. *)
Inductive pyval : Type :=
  | PyNone
  | PyBool (b : bool)
  | PyInt (z : Z)
  | PyFloat (m e : Z)
  | PyStr (s : string)
  | PyBytes (bs : list Byte.byte)
  | PyList (l : list pyval)
  | PyTuple (l : list pyval)
  | PyDict (d : gmap string pyval).

(** ** Exceptions and outcomes *)

(** The exception classes the client raises or lets through.  [Exception]
    is the plain base class, raised by the client with a message built
    from the response body.  [TypeError] comes from the dataclass
    constructor, [JSONDecodeError] from [response.json()], [KeyError]
    from a dict subscript and [ConnectionError] stands for whatever the
    transport raises. *)
Inductive exn : Type :=
  | ValueError (msg : string)
  | Exception (msg : string)
  | TypeError
  | KeyError (key : string)
  | JSONDecodeError
  | ConnectionError (msg : string).

Inductive outcome (A : Type) : Type :=
  | Return (a : A)
  | Raise (e : exn).
Arguments Return {A} a.
Arguments Raise {A} e.

(** ** Requests and responses *)

Inductive http_method : Type := GET | POST.

(** A request as handed to [session.get] / [session.post]: the URL and
    the keyword arguments [params=], [files=], [data=] and [json=]
    ([None] when the call does not pass it). *)
Record request : Type := mkRequest {
  req_method : http_method;
  req_url : string;
  req_params : option pyval;
  req_files : option pyval;
  req_data : option pyval;
  req_json : option pyval
}.

(** A response as the client observes it: [response.status_code],
    [response.text] and the result of [response.json()], which is [None]
    when the body does not decode. *)
Record response : Type := mkResponse {
  status_code : Z;
  text : string;
  json : option pyval
}.

(** ** The effect of a method call *)

(** The state a method runs in: its receiver and the requests issued so
    far, oldest first. *)
Record world (S : Type) : Type := World {
  self : S;
  sent : list request
}.
Arguments World {S} self sent.
Arguments self {S} w.
Arguments sent {S} w.

(** The remote service together with the transport, as one oracle: from
    the requests issued before and the current one, either a response
    or the exception [requests] raises. *)
Definition service_t : Type := list request → request → outcome response.

Definition M (S A : Type) : Type := world S → outcome A * world S.

Definition ret {S A} (a : A) : M S A := λ w, (Return a, w).

Definition raise {S A} (e : exn) : M S A := λ w, (Raise e, w).

Definition bind {S A B} (m : M S A) (k : A → M S B) : M S B :=
  λ w, match m w with
       | (Return a, w') => k a w'
       | (Raise e, w') => (Raise e, w')
       end.

#[global] Instance M_ret {S} : MRet (M S) := λ A, @ret S A.
#[global] Instance M_bind {S} : MBind (M S) := λ A B k m, bind m k.

(** Reading an attribute of [self]. *)
Definition attr {S A} (f : S → A) : M S A := λ w, (Return (f (self w)), w).

(** Lifting a pure computation that may raise. *)
Definition lift {S A} (o : outcome A) : M S A := λ w, (o, w).

(** Calling a method of the object held in an attribute: the callee runs
    with that object as its receiver, on the same wire, and the
    attribute holds the callee's receiver afterwards. *)
Definition on_attr {S T A} (get : S → T) (set : T → S → S) (m : M T A) : M S A :=
  λ w, let '(o, w') := m (World (get (self w)) (sent w)) in
       (o, World (set (self w') (self w)) (sent w')).

(** [requests.Session]: the client creates one and calls [get] and [post]
    on it; nothing of its inside is visible to the client. *)
Inductive Session : Type := RequestsSession.

(** [session.request]: the request goes on the wire and the service's
    answer, or the transport's exception, comes back. *)
Definition session_request {S} (service : service_t) (_ : Session) (r : request)
  : M S response :=
  λ w, (service (sent w) r, World (self w) (sent w ++ [r])).

Definition session_post {S} (service : service_t) (s : Session) (url : string)
    (params files data json : option pyval) : M S response :=
  session_request service s (mkRequest POST url params files data json).

Definition session_get {S} (service : service_t) (s : Session) (url : string)
  : M S response :=
  session_request service s (mkRequest GET url None None None None).

(** [response.json()] *)
Definition response_json (r : response) : outcome pyval :=
  match json r with
  | Some v => Return v
  | None => Raise JSONDecodeError
  end.

(** [key in d] and [d[key]] on a dict with string keys. *)
Definition dict_contains (d : gmap string pyval) (key : string) : bool :=
  bool_decide (is_Some (d !! key)).

Definition dict_getitem (d : gmap string pyval) (key : string) : outcome pyval :=
  match d !! key with
  | Some v => Return v
  | None => Raise (KeyError key)
  end.

(** [str.rstrip(chars)] with a one-character [chars]: every trailing
    occurrence of [c] is removed. *)
Fixpoint rstrip (c : Ascii.ascii) (s : string) : string :=
  match s with
  | EmptyString => EmptyString
  | String a s' =>
      match rstrip c s' with
      | EmptyString => if Ascii.eqb a c then EmptyString else String a EmptyString
      | r => String a r
      end
  end.

(** ** The [UploadedFile] dataclass *)

Module UploadedFile.

(** The dataclass declares six fields; its annotations are not checked
    at run time, so each field holds whatever value it was given. *)
Record t : Type := mk {
  id : pyval;
  purpose : pyval;
  filename : pyval;
  bytes : pyval;
  created_at : pyval;
  status : pyval
}.

Definition fields : list string :=
  ["id"; "purpose"; "filename"; "bytes"; "created_at"; "status"].

(** The generated [__init__] called with keyword arguments only: a
    keyword that is no field, or a field without a keyword, is a
    [TypeError]; no field has a default. *)
Definition init (kwargs : gmap string pyval) : outcome t :=
  if bool_decide (dom kwargs ⊆ list_to_set (C := gset string) fields) then
    match kwargs !! "id", kwargs !! "purpose", kwargs !! "filename",
          kwargs !! "bytes", kwargs !! "created_at", kwargs !! "status" with
    | Some a, Some b, Some c, Some d, Some e, Some f => Return (mk a b c d e f)
    | _, _, _, _, _, _ => Raise TypeError
    end
  else Raise TypeError.

(** [UploadedFile( **result )]: unpacking anything but a mapping is a
    [TypeError] as well. *)
Definition init_unpack (result : pyval) : outcome t :=
  match result with
  | PyDict d => init d
  | _ => Raise TypeError
  end.

End UploadedFile.

(** ** [FilesClient] *)

Module FilesClient.

Record t : Type := mk {
  base_url : string;
  api_key : string;
  session : Session
}.

(** [__init__(self, base_url, api_key)] *)
Definition init (base_url api_key : string) : M unit t :=
  ret (mk base_url api_key RequestsSession).

Section Methods.
Context (service : service_t).

(** [upload(self, file, purpose="ocr")] *)
Definition upload (file : gmap string pyval) (purpose : string)
  : M t UploadedFile.t :=
  if negb (dict_contains file "file_name") || negb (dict_contains file "content")
  then raise (ValueError "File must contain 'file_name' and 'content' keys")
  else
    name ← lift (dict_getitem file "file_name");
    content ← lift (dict_getitem file "content");
    let files := PyDict {[ "file" := PyTuple [name; content] ]} in
    let data := PyDict {[ "purpose" := PyStr purpose ]} in
    url ← attr base_url;
    s ← attr session;
    response ← session_post service s (url +:+ "/v1/files")
                 None (Some files) (Some data) None;
    if negb (status_code response =? 200)%Z
    then raise (Exception ("Upload failed: " +:+ text response))
    else
      result ← lift (response_json response);
      lift (UploadedFile.init_unpack result).

End Methods.

End FilesClient.

(** ** [nvOCR] *)

Module nvOCR.

Record t : Type := mk {
  api_key : string;
  url : string;
  session : Session;
  files : FilesClient.t
}.

Definition set_files (f : FilesClient.t) (c : t) : t :=
  mk (api_key c) (url c) (session c) f.

(** [__init__(self, api_key, url="http://localhost:8000")] *)
Definition init (api_key url : string) : M unit t :=
  let url' := rstrip "/"%char url in
  f ← FilesClient.init url' api_key;
  ret (mk api_key url' RequestsSession f).

Section Methods.
Context (service : service_t).

(** [process_uploaded_file(self, file_id, prompt_mode)] *)
Definition process_uploaded_file (file_id prompt_mode : string) : M t string :=
  u ← attr url;
  s ← attr session;
  response ← session_post service s (u +:+ "/v1/ocr/process_file/" +:+ file_id)
               (Some (PyDict {[ "prompt_mode" := PyStr prompt_mode ]}))
               None None None;
  if negb (status_code response =? 200)%Z
  then raise (Exception ("Processing failed: " +:+ text response))
  else ret (text response).

(** [process_image(self, document, prompt_mode)] *)
Definition process_image (document : gmap string pyval) (prompt_mode : string)
  : M t string :=
  let request_data :=
    PyDict (<[ "document" := PyDict document ]>
              {[ "prompt_mode" := PyStr prompt_mode ]}) in
  u ← attr url;
  s ← attr session;
  response ← session_post service s (u +:+ "/v1/ocr/process_image")
               None None None (Some request_data);
  if negb (status_code response =? 200)%Z
  then raise (Exception ("Processing failed: " +:+ text response))
  else ret (text response).

(** [health_check(self)] *)
Definition health_check : M t pyval :=
  u ← attr url;
  s ← attr session;
  response ← session_get service s (u +:+ "/health");
  if negb (status_code response =? 200)%Z
  then raise (Exception ("Health check failed: " +:+ text response))
  else lift (response_json response).

(** [client.files.upload(file, purpose)]: the upload as a caller of
    [nvOCR] reaches it. *)
Definition upload (file : gmap string pyval) (purpose : string)
  : M t UploadedFile.t :=
  on_attr files set_files (FilesClient.upload service file purpose).

End Methods.

End nvOCR.

(** ** The four operations as one caller sees them *)

(** A call of one of the client's four operations with its arguments,
    and what a successful call hands back. *)
Inductive call : Type :=
  | Upload (file : gmap string pyval) (purpose : string)
  | ProcessUploadedFile (file_id prompt_mode : string)
  | ProcessImage (document : gmap string pyval) (prompt_mode : string)
  | HealthCheck.

Inductive answer : Type :=
  | Uploaded (f : UploadedFile.t)
  | Markdown (s : string)
  | Health (v : pyval).

Definition run (service : service_t) (c : call) : M nvOCR.t answer :=
  match c with
  | Upload file purpose =>
      f ← nvOCR.upload service file purpose; ret (Uploaded f)
  | ProcessUploadedFile file_id prompt_mode =>
      s ← nvOCR.process_uploaded_file service file_id prompt_mode; ret (Markdown s)
  | ProcessImage document prompt_mode =>
      s ← nvOCR.process_image service document prompt_mode; ret (Markdown s)
  | HealthCheck =>
      v ← nvOCR.health_check service; ret (Health v)
  end.

(** A caller that makes one call after the other and carries on whether
    a call returned or raised. *)
Fixpoint run_all (service : service_t) (cs : list call) (w : world nvOCR.t)
  : world nvOCR.t :=
  match cs with
  | [] => w
  | c :: cs' => run_all service cs' (snd (run service c w))
  end.

(** The path each operation appends to the base URL, and the text each
    puts in front of the response body when the status is not 200. *)
Definition call_path (c : call) : string :=
  match c with
  | Upload _ _ => "/v1/files"
  | ProcessUploadedFile file_id _ => "/v1/ocr/process_file/" +:+ file_id
  | ProcessImage _ _ => "/v1/ocr/process_image"
  | HealthCheck => "/health"
  end.

Definition failure_prefix (c : call) : string :=
  match c with
  | Upload _ _ => "Upload failed: "
  | ProcessUploadedFile _ _ | ProcessImage _ _ => "Processing failed: "
  | HealthCheck => "Health check failed: "
  end.

(** The request [upload] puts on the wire for a file with both keys. *)
Definition upload_request (base_url : string) (name content : pyval)
    (purpose : string) : request :=
  mkRequest POST (base_url +:+ "/v1/files") None
    (Some (PyDict {[ "file" := PyTuple [name; content] ]}))
    (Some (PyDict {[ "purpose" := PyStr purpose ]})) None.

(** The requests the other three operations put on the wire. *)
Definition process_file_request (url file_id prompt_mode : string) : request :=
  mkRequest POST (url +:+ "/v1/ocr/process_file/" +:+ file_id)
    (Some (PyDict {[ "prompt_mode" := PyStr prompt_mode ]})) None None None.

Definition process_image_request (url : string) (document : gmap string pyval)
    (prompt_mode : string) : request :=
  mkRequest POST (url +:+ "/v1/ocr/process_image") None None None
    (Some (PyDict (<[ "document" := PyDict document ]>
                     {[ "prompt_mode" := PyStr prompt_mode ]}))).

Definition health_request (url : string) : request :=
  mkRequest GET (url +:+ "/health") None None None None.

#[global] Instance pyval_inhabited : Inhabited pyval := populate PyNone.

(** The request a call puts on the wire, if any: [upload] issues none
    for a file without both keys. *)
Definition call_request (c : nvOCR.t) (cl : call) : option request :=
  match cl with
  | Upload file purpose =>
      match file !! "file_name", file !! "content" with
      | Some name, Some content =>
          Some (upload_request (FilesClient.base_url (nvOCR.files c)) name content purpose)
      | _, _ => None
      end
  | ProcessUploadedFile file_id prompt_mode =>
      Some (process_file_request (nvOCR.url c) file_id prompt_mode)
  | ProcessImage document prompt_mode =>
      Some (process_image_request (nvOCR.url c) document prompt_mode)
  | HealthCheck => Some (health_request (nvOCR.url c))
  end.

(** What a call makes of a response with status 200. *)
Definition call_answer (cl : call) (r : response) : outcome answer :=
  match cl with
  | Upload _ _ =>
      match response_json r with
      | Return v =>
          match UploadedFile.init_unpack v with
          | Return f => Return (Uploaded f)
          | Raise e => Raise e
          end
      | Raise e => Raise e
      end
  | ProcessUploadedFile _ _ | ProcessImage _ _ => Return (Markdown (text r))
  | HealthCheck =>
      match response_json r with
      | Return v => Return (Health v)
      | Raise e => Raise e
      end
  end.

(** The outcome of a call by client [c] when [wire] has been sent. *)
Definition call_outcome (service : service_t) (wire : list request)
    (c : nvOCR.t) (cl : call) : outcome answer :=
  match call_request c cl with
  | None => Raise (ValueError "File must contain 'file_name' and 'content' keys")
  | Some req =>
      match service wire req with
      | Return r =>
          if negb (status_code r =? 200)%Z
          then Raise (Exception (failure_prefix cl +:+ text r))
          else call_answer cl r
      | Raise e => Raise e
      end
  end.

(** The client configuration: base URL and API key of the client and of
    its embedded [FilesClient]. *)
Definition config (c : nvOCR.t) : string * string * string * string :=
  (nvOCR.url c, nvOCR.api_key c,
   FilesClient.base_url (nvOCR.files c), FilesClient.api_key (nvOCR.files c)).

(** Whether [s] ends in the character [c]. *)
Fixpoint ends_with_char (c : Ascii.ascii) (s : string) : bool :=
  match s with
  | EmptyString => false
  | String a EmptyString => Ascii.eqb a c
  | String _ s' => ends_with_char c s'
  end.

(** ** The normalizations the specification names *)

(** Removing exactly one trailing [c] when there is one, as the
    specification words the URL normalization. *)
Fixpoint strip_one_trailing (c : Ascii.ascii) (s : string) : string :=
  match s with
  | EmptyString => EmptyString
  | String a EmptyString => if Ascii.eqb a c then EmptyString else s
  | String a s' => String a (strip_one_trailing c s')
  end.

(** [str.lower()] on ASCII text, for the lowercase form the
    specification speaks of; the client itself never calls it. *)
Definition ascii_lower (a : Ascii.ascii) : Ascii.ascii :=
  let n := Ascii.N_of_ascii a in
  if (65 <=? n)%N && (n <=? 90)%N then Ascii.ascii_of_N (n + 32) else a.

Fixpoint str_lower (s : string) : string :=
  match s with
  | EmptyString => EmptyString
  | String a s' => String (ascii_lower a) (str_lower s')
  end.

(** [n] copies of the character [c]. *)
Fixpoint str_repeat (c : Ascii.ascii) (n : nat) : string :=
  match n with
  | O => EmptyString
  | S n' => String c (str_repeat c n')
  end.

(** ** Example inputs: the scenarios of the specification *)

Definition uploaded_json : gmap string pyval :=
  <[ "id" := PyStr "f1" ]> (<[ "purpose" := PyStr "ocr" ]>
  (<[ "filename" := PyStr "a.png" ]> (<[ "bytes" := PyInt 10 ]>
  (<[ "created_at" := PyInt 1700000000 ]> {[ "status" := PyStr "uploaded" ]})))).

Definition ten_bytes : list Byte.byte := list_byte_of_string "0123456789".

Definition a_png : gmap string pyval :=
  <[ "file_name" := PyStr "a.png" ]> {[ "content" := PyBytes ten_bytes ]}.

Definition only_name : gmap string pyval := {[ "file_name" := PyStr "a.png" ]}.

Definition an_image : gmap string pyval :=
  <[ "type" := PyStr "image_url" ]> {[ "image_url" := PyStr "data:image/png;base64,AA==" ]}.

(** A service that answers every request with the same response. *)
Definition always (r : response) : service_t := λ _ _, Return r.

(** The body text of the upload scenario, with its double quotes. *)
Definition quoted (s : string) : string :=
  let dq := String (Ascii.ascii_of_nat 34) EmptyString in dq +:+ s +:+ dq.

Definition uploaded_text : string :=
  "{" +:+ quoted "id" +:+ ":" +:+ quoted "f1" +:+ ","
  +:+ quoted "purpose" +:+ ":" +:+ quoted "ocr" +:+ ","
  +:+ quoted "filename" +:+ ":" +:+ quoted "a.png" +:+ ","
  +:+ quoted "bytes" +:+ ":10,"
  +:+ quoted "created_at" +:+ ":1700000000,"
  +:+ quoted "status" +:+ ":" +:+ quoted "uploaded" +:+ "}".

Definition upload_ok : response :=
  mkResponse 200 uploaded_text (Some (PyDict uploaded_json)).
Definition markdown_ok : response := mkResponse 200 "# Title" None.
Definition internal_error : response := mkResponse 500 "internal error" None.
Definition not_found : response := mkResponse 404 "internal error" None.

Definition a_files_client : FilesClient.t :=
  FilesClient.mk "http://host:8000" "key" RequestsSession.

Definition a_client : nvOCR.t :=
  nvOCR.mk "key" "http://host:8000" RequestsSession a_files_client.

(** More example inputs: a transport that cannot connect, bodies that
    are JSON but no object, a health report, and a file mapping with a
    key the client does not look at. *)
Definition unreachable : service_t := λ _ _, Raise (ConnectionError "connection refused").

Definition list_body : response := mkResponse 200 "[]" (Some (PyList [])).

Definition health_json : gmap string pyval := {[ "status" := PyStr "healthy" ]}.

Definition health_ok : response :=
  mkResponse 200 ("{" +:+ quoted "status" +:+ ":" +:+ quoted "healthy" +:+ "}")
    (Some (PyDict health_json)).

(** A service that answers POSTs with query parameters (the ones
    [process_uploaded_file] issues) and refuses every other request. *)
Definition process_file_only : service_t :=
  λ _ req, match req_method req, req_params req with
           | POST, Some _ => Return markdown_ok
           | _, _ => Raise (ConnectionError "connection refused")
           end.

Definition markdown_null : response := mkResponse 200 "# Title" (Some PyNone).

Definition a_png_tagged : gmap string pyval := <[ "mime" := PyStr "image/png" ]> a_png.

(** * Properties *)

(** ** Dictionaries and the dataclass constructor *)

Lemma dict_contains_Some (d : gmap string pyval) key v :
  d !! key = Some v → dict_contains d key = true.
Proof. intros H. unfold dict_contains. rewrite H. by apply bool_decide_eq_true_2. Qed.

Lemma dict_contains_None (d : gmap string pyval) key :
  d !! key = None → dict_contains d key = false.
Proof.
  intros H. unfold dict_contains. rewrite H.
  apply bool_decide_eq_false_2. by intros [? ?].
Qed.

Lemma dict_getitem_Some (d : gmap string pyval) key v :
  d !! key = Some v → dict_getitem d key = Return v.
Proof. intros H. unfold dict_getitem. by rewrite H. Qed.

Lemma fields_set :
  list_to_set (C := gset string) UploadedFile.fields
  = {[ "id"; "purpose"; "filename"; "bytes"; "created_at"; "status" ]}.
Proof.
  unfold UploadedFile.fields. cbn [list_to_set foldr].
  apply set_eq. intros k.
  rewrite !elem_of_union, !elem_of_singleton, elem_of_empty. tauto.
Qed.

(** With exactly the six declared keys the constructor returns, and each
    field is the value under the key of its name. *)
Lemma UploadedFile_init_exact (kwargs : gmap string pyval) :
  dom kwargs = list_to_set UploadedFile.fields →
  ∃ f, UploadedFile.init kwargs = Return f
       ∧ kwargs !! "id" = Some (UploadedFile.id f)
       ∧ kwargs !! "purpose" = Some (UploadedFile.purpose f)
       ∧ kwargs !! "filename" = Some (UploadedFile.filename f)
       ∧ kwargs !! "bytes" = Some (UploadedFile.bytes f)
       ∧ kwargs !! "created_at" = Some (UploadedFile.created_at f)
       ∧ kwargs !! "status" = Some (UploadedFile.status f).
Proof.
  intros Hdom. unfold UploadedFile.init.
  rewrite bool_decide_eq_true_2 by (rewrite Hdom; done).
  rewrite fields_set in Hdom.
  assert (Hin : ∀ k, k ∈ dom kwargs → is_Some (kwargs !! k))
    by (intros k; by rewrite elem_of_dom).
  rewrite Hdom in Hin. setoid_rewrite elem_of_union in Hin.
  repeat setoid_rewrite elem_of_union in Hin.
  setoid_rewrite elem_of_singleton in Hin.
  destruct (Hin "id") as [a ->]; [auto 10|].
  destruct (Hin "purpose") as [b ->]; [auto 10|].
  destruct (Hin "filename") as [c ->]; [auto 10|].
  destruct (Hin "bytes") as [d ->]; [auto 10|].
  destruct (Hin "created_at") as [e ->]; [auto 10|].
  destruct (Hin "status") as [f ->]; [auto 10|].
  eexists. repeat split.
Qed.

(** With any other key set (a key too many, or one missing) the
    constructor raises [TypeError]. *)
Lemma UploadedFile_init_mismatch (kwargs : gmap string pyval) :
  dom kwargs ≠ list_to_set UploadedFile.fields →
  UploadedFile.init kwargs = Raise TypeError.
Proof.
  intros Hdom. unfold UploadedFile.init.
  case_bool_decide as Hsub; [|done].
  destruct (kwargs !! "id") as [a|] eqn:Ha; [|done].
  destruct (kwargs !! "purpose") as [b|] eqn:Hb; [|done].
  destruct (kwargs !! "filename") as [c|] eqn:Hc; [|done].
  destruct (kwargs !! "bytes") as [d|] eqn:Hd; [|done].
  destruct (kwargs !! "created_at") as [e|] eqn:He; [|done].
  destruct (kwargs !! "status") as [f|] eqn:Hf; [|done].
  exfalso. apply Hdom. apply set_eq. intros k. split; [apply Hsub|].
  rewrite fields_set. rewrite !elem_of_union, !elem_of_singleton.
  intros H. apply elem_of_dom.
  destruct H as [[[[[-> | ->] | ->] | ->] | ->] | ->]; eauto.
Qed.

(** ** [upload] *)

(** The guard of [upload] fires as soon as one of the two keys is not
    there, and then nothing else happens. *)
Lemma upload_guard_fires (file : gmap string pyval) :
  file !! "file_name" = None ∨ file !! "content" = None →
  negb (dict_contains file "file_name") || negb (dict_contains file "content") = true.
Proof.
  intros [H|H]; rewrite (dict_contains_None _ _ H); cbn [negb orb].
  - done.
  - apply orb_true_r.
Qed.

Lemma upload_guarded service file purpose (w : world FilesClient.t) :
  negb (dict_contains file "file_name") || negb (dict_contains file "content") = true →
  FilesClient.upload service file purpose w
  = (Raise (ValueError "File must contain 'file_name' and 'content' keys"), w).
Proof. intros Hg. unfold FilesClient.upload. by rewrite Hg. Qed.

(** What [upload] does once both keys are there: one request, then the
    status check, the decoding and the record construction. *)
Lemma upload_present service file purpose name content (w : world FilesClient.t) :
  file !! "file_name" = Some name →
  file !! "content" = Some content →
  FilesClient.upload service file purpose w
  = let req := upload_request (FilesClient.base_url (self w)) name content purpose in
    let w' := World (self w) (sent w ++ [req]) in
    match service (sent w) req with
    | Return r =>
        if negb (status_code r =? 200)%Z
        then (Raise (Exception ("Upload failed: " +:+ text r)), w')
        else match response_json r with
             | Return v => (UploadedFile.init_unpack v, w')
             | Raise e => (Raise e, w')
             end
    | Raise e => (Raise e, w')
    end.
Proof.
  intros Hn Hc. unfold FilesClient.upload.
  rewrite (dict_contains_Some _ _ _ Hn), (dict_contains_Some _ _ _ Hc).
  rewrite (dict_getitem_Some _ _ _ Hn), (dict_getitem_Some _ _ _ Hc).
  cbn [negb orb]. unfold mbind, M_bind, bind, lift, attr, session_post,
    session_request, upload_request, raise.
  cbn [self sent fst snd].
  destruct (service _ _) as [r|e]; [|done].
  destruct (negb _); [done|].
  destruct (response_json r); done.
Qed.

(** C1. For a file mapping with both keys, when the service answers the
    upload POST with status 200 and a JSON object, [upload] issues
    exactly one request; if the object has exactly the six declared
    keys the result is the [UploadedFile] whose fields are the values
    under those keys, and with a key too many or a key missing the
    construction raises [TypeError] (the specification's
    ProtocolMismatch) instead of ignoring the drift. *)
Theorem upload_returns_record service file purpose (w : world FilesClient.t)
    name content r (d : gmap string pyval) :
  file !! "file_name" = Some name →
  file !! "content" = Some content →
  service (sent w)
    (upload_request (FilesClient.base_url (self w)) name content purpose) = Return r →
  status_code r = 200 →
  json r = Some (PyDict d) →
  FilesClient.upload service file purpose w
  = (if bool_decide (dom d = list_to_set UploadedFile.fields)
     then Return (UploadedFile.mk (d !!! "id") (d !!! "purpose") (d !!! "filename")
                    (d !!! "bytes") (d !!! "created_at") (d !!! "status"))
     else Raise TypeError,
     World (self w)
       (sent w ++ [upload_request (FilesClient.base_url (self w)) name content purpose])).
Proof.
  intros Hn Hc Hsvc Hst Hjs.
  rewrite (upload_present _ _ _ _ _ _ Hn Hc). cbv zeta.
  rewrite Hsvc, Hst. cbn [Z.eqb Pos.eqb negb].
  unfold response_json. rewrite Hjs. cbn [UploadedFile.init_unpack].
  f_equal. case_bool_decide as Hdom.
  - destruct (UploadedFile_init_exact d Hdom)
      as (f & -> & Hid & Hpu & Hfn & Hby & Hcr & Hstat).
    rewrite !lookup_total_alt, Hid, Hpu, Hfn, Hby, Hcr, Hstat. by destruct f.
  - by apply UploadedFile_init_mismatch.
Qed.

Lemma upload_returns_record_witness :
  FilesClient.upload (always upload_ok) a_png "ocr" (World a_files_client [])
  = (Return (UploadedFile.mk (PyStr "f1") (PyStr "ocr") (PyStr "a.png")
               (PyInt 10) (PyInt 1700000000) (PyStr "uploaded")),
     World a_files_client
       [upload_request "http://host:8000" (PyStr "a.png") (PyBytes ten_bytes) "ocr"]).
Proof.
  rewrite (upload_returns_record (always upload_ok) a_png "ocr"
             (World a_files_client []) (PyStr "a.png") (PyBytes ten_bytes)
             upload_ok uploaded_json eq_refl eq_refl eq_refl eq_refl eq_refl).
  vm_compute. reflexivity.
Defined.

(** C2. For a file mapping without the [file_name] key or without the
    [content] key, [upload] raises [ValueError] (the specification's
    InvalidArgument) and leaves the wire and the client as they were:
    no request is issued. *)
Theorem upload_missing_key service file purpose (w : world FilesClient.t) :
  file !! "file_name" = None ∨ file !! "content" = None →
  FilesClient.upload service file purpose w
  = (Raise (ValueError "File must contain 'file_name' and 'content' keys"), w).
Proof.
  intros Hmiss. apply upload_guarded. by apply upload_guard_fires.
Qed.

Lemma upload_missing_key_witness :
  FilesClient.upload (always upload_ok) only_name "ocr" (World a_files_client [])
  = (Raise (ValueError "File must contain 'file_name' and 'content' keys"),
     World a_files_client []).
Proof.
  apply (upload_missing_key (always upload_ok) only_name "ocr" (World a_files_client [])).
  right. reflexivity.
Defined.

(** ** The operations of [nvOCR], unfolded once *)

Ltac unfold_method :=
  unfold mbind, M_bind, bind, mret, M_ret, ret, raise, lift, attr,
    session_post, session_get, session_request;
  cbn [self sent fst snd].

Ltac by_cases_on_response :=
  cbv zeta; unfold_method;
  match goal with
  | |- context [ ?service (sent ?w) ?req ] =>
      destruct (service (sent w) req) as [r|e]; [|reflexivity];
      destruct (negb (status_code r =? 200)%Z); try reflexivity
  end.

Lemma process_uploaded_file_eq service file_id prompt_mode (w : world nvOCR.t) :
  nvOCR.process_uploaded_file service file_id prompt_mode w
  = let req := process_file_request (nvOCR.url (self w)) file_id prompt_mode in
    let w' := World (self w) (sent w ++ [req]) in
    match service (sent w) req with
    | Return r =>
        if negb (status_code r =? 200)%Z
        then (Raise (Exception ("Processing failed: " +:+ text r)), w')
        else (Return (text r), w')
    | Raise e => (Raise e, w')
    end.
Proof. unfold nvOCR.process_uploaded_file, process_file_request. by_cases_on_response. Qed.

Lemma process_image_eq service document prompt_mode (w : world nvOCR.t) :
  nvOCR.process_image service document prompt_mode w
  = let req := process_image_request (nvOCR.url (self w)) document prompt_mode in
    let w' := World (self w) (sent w ++ [req]) in
    match service (sent w) req with
    | Return r =>
        if negb (status_code r =? 200)%Z
        then (Raise (Exception ("Processing failed: " +:+ text r)), w')
        else (Return (text r), w')
    | Raise e => (Raise e, w')
    end.
Proof. unfold nvOCR.process_image, process_image_request. by_cases_on_response. Qed.

Lemma health_check_eq service (w : world nvOCR.t) :
  nvOCR.health_check service w
  = let req := health_request (nvOCR.url (self w)) in
    let w' := World (self w) (sent w ++ [req]) in
    match service (sent w) req with
    | Return r =>
        if negb (status_code r =? 200)%Z
        then (Raise (Exception ("Health check failed: " +:+ text r)), w')
        else (response_json r, w')
    | Raise e => (Raise e, w')
    end.
Proof. unfold nvOCR.health_check, health_request. by_cases_on_response. Qed.

Lemma status_200 r : status_code r = 200 → negb (status_code r =? 200)%Z = false.
Proof. intros ->. reflexivity. Qed.

Lemma status_not_200 r : status_code r ≠ 200 → negb (status_code r =? 200)%Z = true.
Proof. intros H. apply negb_true_iff. by apply Z.eqb_neq. Qed.

(** C3. When the service answers with status 200, whatever the body,
    [process_uploaded_file] returns exactly the response text, and so,
    independently, does [process_image]: nothing is parsed, re-encoded
    or validated, and each has issued its one request.  Either
    statement needs the answer to its own request only. *)
Theorem process_returns_text service (w : world nvOCR.t) prompt_mode :
  (∀ file_id r,
     service (sent w)
       (process_file_request (nvOCR.url (self w)) file_id prompt_mode) = Return r →
     status_code r = 200 →
     nvOCR.process_uploaded_file service file_id prompt_mode w
     = (Return (text r),
        World (self w)
          (sent w ++ [process_file_request (nvOCR.url (self w)) file_id prompt_mode])))
  ∧ (∀ document r,
     service (sent w)
       (process_image_request (nvOCR.url (self w)) document prompt_mode) = Return r →
     status_code r = 200 →
     nvOCR.process_image service document prompt_mode w
     = (Return (text r),
        World (self w)
          (sent w ++ [process_image_request (nvOCR.url (self w)) document prompt_mode]))).
Proof.
  split.
  - intros file_id r Hs Hc. rewrite process_uploaded_file_eq. cbv zeta.
    by rewrite Hs, (status_200 _ Hc).
  - intros document r Hs Hc. rewrite process_image_eq. cbv zeta.
    by rewrite Hs, (status_200 _ Hc).
Qed.

Lemma process_returns_text_witness :
  fst (nvOCR.process_uploaded_file (always markdown_ok) "f1" "prompt_layout_all_en"
         (World a_client [])) = Return "# Title"
  ∧ fst (nvOCR.process_image (always markdown_ok) an_image "prompt_layout_all_en"
           (World a_client [])) = Return "# Title"
  ∧ fst (nvOCR.process_uploaded_file process_file_only "f1" "prompt_layout_all_en"
           (World a_client [])) = Return "# Title".
Proof.
  destruct (process_returns_text (always markdown_ok) (World a_client [])
              "prompt_layout_all_en") as [Hfile Himage].
  destruct (process_returns_text process_file_only (World a_client [])
              "prompt_layout_all_en") as [Hfile' _].
  split; [|split].
  - rewrite (Hfile "f1" markdown_ok eq_refl eq_refl). reflexivity.
  - rewrite (Himage an_image markdown_ok eq_refl eq_refl). reflexivity.
  - rewrite (Hfile' "f1" markdown_ok eq_refl eq_refl). reflexivity.
Defined.

(** C10. [process_uploaded_file] puts [file_id] into the URL as it is:
    for every string the request URL is the stored base URL, then
    [/v1/ocr/process_file/], then [file_id]; an empty [file_id] gives
    the bare path, and one with [/], [?] or [#] in it is carried into
    the URL unescaped. *)
Theorem process_file_url_verbatim service prompt_mode (w : world nvOCR.t) :
  (∀ file_id, ∃ req,
     sent (snd (nvOCR.process_uploaded_file service file_id prompt_mode w))
       = (sent w ++ [req])%list
     ∧ req_url req = nvOCR.url (self w) +:+ "/v1/ocr/process_file/" +:+ file_id)
  ∧ (∃ req,
     sent (snd (nvOCR.process_uploaded_file service "" prompt_mode w))
       = (sent w ++ [req])%list
     ∧ req_url req = nvOCR.url (self w) +:+ "/v1/ocr/process_file/")
  ∧ (∃ req,
     sent (snd (nvOCR.process_uploaded_file service "a/../b?x=1#y" prompt_mode w))
       = (sent w ++ [req])%list
     ∧ req_url req = nvOCR.url (self w) +:+ "/v1/ocr/process_file/a/../b?x=1#y").
Proof.
  assert (Hall : ∀ file_id, ∃ req,
     sent (snd (nvOCR.process_uploaded_file service file_id prompt_mode w))
       = (sent w ++ [req])%list
     ∧ req_url req = nvOCR.url (self w) +:+ "/v1/ocr/process_file/" +:+ file_id).
  { intros file_id.
    exists (process_file_request (nvOCR.url (self w)) file_id prompt_mode).
    split; [|reflexivity].
    rewrite process_uploaded_file_eq. cbv zeta.
    destruct (service _ _) as [r|e]; [destruct (negb _)|]; reflexivity. }
  split; [exact Hall|]. split; [apply (Hall "")|apply (Hall "a/../b?x=1#y")].
Qed.

(** ** One call, as a whole *)

Lemma lookup_cases (d : gmap string pyval) :
  (∃ name content, d !! "file_name" = Some name ∧ d !! "content" = Some content)
  ∨ (d !! "file_name" = None ∨ d !! "content" = None).
Proof.
  destruct (d !! "file_name") as [n|]; [|by right; left].
  destruct (d !! "content") as [c|]; [|by right; right].
  left. by exists n, c.
Qed.

Lemma set_files_same (c : nvOCR.t) : nvOCR.set_files (nvOCR.files c) c = c.
Proof. by destruct c. Qed.

Ltac close_call :=
  cbn [self sent option_list]; rewrite ?set_files_same, ?app_nil_r; reflexivity.

(** Every call leaves the receiver as it was, appends the request it
    issued to the wire, and has the outcome [call_outcome] describes. *)
Lemma run_eq service cl (w : world nvOCR.t) :
  run service cl w
  = (call_outcome service (sent w) (self w) cl,
     World (self w) (sent w ++ option_list (call_request (self w) cl))).
Proof.
  destruct w as [c l]. destruct cl as [file purpose|fid pm|doc pm|];
    unfold run, call_outcome, call_request, call_answer, failure_prefix;
    cbn [self sent].
  - unfold mbind, M_bind, bind at 1. unfold nvOCR.upload, on_attr. cbn [self sent].
    destruct (lookup_cases file) as [(n & ct & Hn & Hc)|Hmiss].
    + rewrite (upload_present _ _ _ _ _ _ Hn Hc), Hn, Hc. cbv zeta. cbn [self sent].
      destruct (service _ _) as [r|e]; [|close_call].
      destruct (negb _); [close_call|].
      destruct (response_json r) as [v|e]; [|close_call].
      destruct (UploadedFile.init_unpack v); close_call.
    + rewrite (upload_guarded _ _ _ _ (upload_guard_fires _ Hmiss)).
      destruct Hmiss as [-> | Hc]; [close_call|].
      rewrite Hc. destruct (file !! "file_name"); close_call.
  - unfold mbind, M_bind, bind at 1. rewrite process_uploaded_file_eq.
    cbv zeta. cbn [self sent option_list].
    destruct (service _ _) as [r|e]; [destruct (negb _)|]; reflexivity.
  - unfold mbind, M_bind, bind at 1. rewrite process_image_eq.
    cbv zeta. cbn [self sent option_list].
    destruct (service _ _) as [r|e]; [destruct (negb _)|]; reflexivity.
  - unfold mbind, M_bind, bind at 1. rewrite health_check_eq.
    cbv zeta. cbn [self sent option_list].
    destruct (service _ _) as [r|e]; [destruct (negb _)|]; try reflexivity.
    destruct (response_json r); reflexivity.
Qed.

Lemma run_all_self service cs (w : world nvOCR.t) :
  self (run_all service cs w) = self w.
Proof.
  revert w. induction cs as [|cl cs IH]; intros w; [done|].
  cbn [run_all]. rewrite IH. by rewrite run_eq.
Qed.

(** The request of a call depends on the two stored URLs only. *)
Lemma call_request_urls (c1 c2 : nvOCR.t) cl :
  nvOCR.url c1 = nvOCR.url c2 →
  FilesClient.base_url (nvOCR.files c1) = FilesClient.base_url (nvOCR.files c2) →
  call_request c1 cl = call_request c2 cl.
Proof. intros Hu Hb. destruct cl; cbn [call_request]; by rewrite ?Hu, ?Hb. Qed.

(** Every request of a client whose two URLs agree goes to the stored
    URL followed by the path of the operation. *)
Lemma call_request_url (c : nvOCR.t) cl :
  FilesClient.base_url (nvOCR.files c) = nvOCR.url c →
  Forall (λ rq, req_url rq = nvOCR.url c +:+ call_path cl)
    (option_list (call_request c cl)).
Proof.
  intros Hb. destruct cl as [file purpose|fid pm|doc pm|];
    cbn [call_request call_path].
  - destruct (file !! "file_name"); [|constructor].
    destruct (file !! "content"); [|constructor].
    repeat constructor. cbn. by rewrite Hb.
  - by repeat constructor.
  - by repeat constructor.
  - by repeat constructor.
Qed.

(** ** [rstrip] *)

Lemma append_nil_l s : "" +:+ s = s.
Proof. reflexivity. Qed.

Lemma append_cons a s t : String a s +:+ t = String a (s +:+ t).
Proof. reflexivity. Qed.

Section Rstrip.
Variable c : Ascii.ascii.

(** [rstrip] only removes a run of [c] at the end. *)
Lemma rstrip_decompose s : ∃ n, s = rstrip c s +:+ str_repeat c n.
Proof.
  induction s as [|a s' [n IH]]; [by exists O|].
  cbn [rstrip]. destruct (rstrip c s') as [|b r] eqn:Hr.
  - rewrite append_nil_l in IH. destruct (Ascii.eqb a c) eqn:Hac.
    + apply Ascii.eqb_eq in Hac as ->. exists (S n).
      rewrite append_nil_l. cbn [str_repeat]. by f_equal.
    + exists n. rewrite append_cons, append_nil_l. by f_equal.
  - exists n. rewrite append_cons. f_equal. exact IH.
Qed.

(** What [rstrip] returns does not end in [c]. *)
Lemma rstrip_ends s : ends_with_char c (rstrip c s) = false.
Proof.
  induction s as [|a s' IH]; [done|].
  cbn [rstrip]. destruct (rstrip c s') as [|b r] eqn:Hr.
  - destruct (Ascii.eqb a c) eqn:Hac; [done|]. cbn. exact Hac.
  - exact IH.
Qed.

(** A string that does not end in [c] is left alone. *)
Lemma rstrip_id s : ends_with_char c s = false → rstrip c s = s.
Proof.
  induction s as [|a s' IH]; [done|].
  destruct s' as [|b r].
  - cbn. by intros ->.
  - intros H. change (ends_with_char c (String b r) = false) in H.
    specialize (IH H). cbn [rstrip] in *. rewrite IH. reflexivity.
Qed.
End Rstrip.

(** ** Construction *)

Lemma init_eq api_key url (w : world unit) :
  nvOCR.init api_key url w
  = (Return (nvOCR.mk api_key (rstrip "/" url) RequestsSession
               (FilesClient.mk (rstrip "/" url) api_key RequestsSession)), w).
Proof. reflexivity. Qed.

(** C5, as the code has it. For every url, construction removes every
    trailing [/] (the stored URL does not end in [/], and the url given
    is the stored one followed by slashes only), stores the api_key,
    gives the embedded [FilesClient] the same normalized base URL and
    the same key, and issues no request. *)
Theorem init_normalizes_url api_key url (w : world unit) :
  ∃ c n,
    nvOCR.init api_key url w = (Return c, w)
    ∧ url = nvOCR.url c +:+ str_repeat "/" n
    ∧ ends_with_char "/" (nvOCR.url c) = false
    ∧ nvOCR.api_key c = api_key
    ∧ FilesClient.base_url (nvOCR.files c) = nvOCR.url c
    ∧ FilesClient.api_key (nvOCR.files c) = api_key.
Proof.
  destruct (rstrip_decompose "/" url) as [n Hn].
  eexists _, n. rewrite init_eq. split; [reflexivity|]. cbn.
  split; [exact Hn|]. split; [apply rstrip_ends|]. done.
Qed.

(** C5, as the specification words it, fails: a url ending in two
    slashes keeps neither of them, where removing exactly one would
    leave [http://host:8000/]. *)
Lemma init_strips_both_slashes :
  ∃ c, nvOCR.init "key" "http://host:8000//" (World tt []) = (Return c, World tt [])
       ∧ nvOCR.url c = "http://host:8000"
       ∧ strip_one_trailing "/" "http://host:8000//" = "http://host:8000/"
       ∧ nvOCR.url c ≠ strip_one_trailing "/" "http://host:8000//".
Proof. eexists. repeat split. cbn. discriminate. Qed.

(** C6. A client constructed with [http://host:8000/] and one
    constructed with [http://host:8000] send every call of the four
    operations to the same URLs, and these are the paths under
    [http://host:8000]. *)
Theorem trailing_slash_same_urls api_key (w : world unit) :
  ∃ c1 c2,
    nvOCR.init api_key "http://host:8000/" w = (Return c1, w)
    ∧ nvOCR.init api_key "http://host:8000" w = (Return c2, w)
    ∧ (∀ service cl l,
         map req_url (sent (snd (run service cl (World c1 l))))
         = map req_url (sent (snd (run service cl (World c2 l)))))
    ∧ (∀ service purpose file_id document prompt_mode,
         map req_url (sent (snd (run service (Upload a_png purpose) (World c2 []))))
           = ["http://host:8000/v1/files"]
         ∧ map req_url (sent (snd (run service
                 (ProcessUploadedFile file_id prompt_mode) (World c2 []))))
           = ["http://host:8000/v1/ocr/process_file/" +:+ file_id]
         ∧ map req_url (sent (snd (run service
                 (ProcessImage document prompt_mode) (World c2 []))))
           = ["http://host:8000/v1/ocr/process_image"]
         ∧ map req_url (sent (snd (run service HealthCheck (World c2 []))))
           = ["http://host:8000/health"]).
Proof.
  eexists _, _. rewrite !init_eq. split; [reflexivity|]. split; [reflexivity|].
  split.
  - intros service cl l. reflexivity.
  - intros service purpose file_id document prompt_mode.
    rewrite !run_eq. repeat split.
Qed.

(** C7, as the code has it. The endpoint root is the url with its
    trailing slashes stripped and its letters as given: both stored
    URLs are that string, and every request of every operation goes to
    it followed by the path of the operation. *)
Theorem endpoint_root_keeps_case api_key url (w : world unit) :
  ∃ c,
    nvOCR.init api_key url w = (Return c, w)
    ∧ nvOCR.url c = rstrip "/" url
    ∧ FilesClient.base_url (nvOCR.files c) = rstrip "/" url
    ∧ ∀ service cl l,
        sent (snd (run service cl (World c l)))
          = (l ++ option_list (call_request c cl))%list
        ∧ Forall (λ rq, req_url rq = rstrip "/" url +:+ call_path cl)
            (option_list (call_request c cl)).
Proof.
  eexists. rewrite init_eq. split; [reflexivity|]. do 2 (split; [reflexivity|]).
  intros service cl l. rewrite run_eq. split; [reflexivity|].
  by apply (call_request_url (nvOCR.mk _ _ _ _)).
Qed.

(** C7, as the specification words it, fails: a url with uppercase
    letters is stored, and used in request URLs, with those letters,
    not in its lowercased form. *)
Lemma init_keeps_uppercase :
  ∃ c, nvOCR.init "key" "http://HOST:8000/" (World tt []) = (Return c, World tt [])
       ∧ nvOCR.url c = "http://HOST:8000"
       ∧ str_lower (rstrip "/" "http://HOST:8000/") = "http://host:8000"
       ∧ nvOCR.url c ≠ str_lower (rstrip "/" "http://HOST:8000/")
       ∧ map req_url (sent (snd (nvOCR.health_check (always markdown_ok) (World c []))))
         = ["http://HOST:8000/health"].
Proof. eexists. repeat split. cbn. discriminate. Qed.

(** ** Failures, the API key and the configuration *)

(** C4, as the code has it. When the response to the request a call
    issued has a status other than 200, the call raises [Exception]
    whose message is the text of the operation ([Upload failed: ],
    [Processing failed: ], [Health check failed: ]) followed by the
    exact response text; the message is built from the text alone. *)
Theorem non200_raises_with_body service cl (w : world nvOCR.t) req r :
  sent (snd (run service cl w)) = (sent w ++ [req])%list →
  service (sent w) req = Return r →
  status_code r ≠ 200 →
  fst (run service cl w) = Raise (Exception (failure_prefix cl +:+ text r)).
Proof.
  rewrite run_eq. cbn [fst snd sent]. intros Hsent Hsvc Hst.
  apply app_inv_head in Hsent. unfold call_outcome.
  destruct (call_request (self w) cl) as [rq|]; [|discriminate].
  injection Hsent as ->. by rewrite Hsvc, (status_not_200 _ Hst).
Qed.

Lemma non200_raises_with_body_witness :
  fst (run (always internal_error) HealthCheck (World a_client []))
  = Raise (Exception "Health check failed: internal error").
Proof.
  apply (non200_raises_with_body (always internal_error) HealthCheck
           (World a_client []) (health_request "http://host:8000") internal_error).
  - reflexivity.
  - reflexivity.
  - discriminate.
Defined.

(** C4, as the specification words it, fails: the error does not carry
    the HTTP status. A 500 and a 404 with the same body raise the very
    same exception, so no reading of the exception gives the status. *)
Lemma non200_error_omits_status :
  status_code internal_error = 500 ∧ status_code not_found = 404
  ∧ fst (nvOCR.health_check (always internal_error) (World a_client []))
    = Raise (Exception "Health check failed: internal error")
  ∧ fst (nvOCR.health_check (always not_found) (World a_client []))
    = Raise (Exception "Health check failed: internal error")
  ∧ ¬ ∃ status_of : exn → Z, ∀ r e,
        status_code r ≠ 200 →
        fst (nvOCR.health_check (always r) (World a_client [])) = Raise e →
        status_of e = status_code r.
Proof.
  do 4 (split; [reflexivity|]). intros [status_of H].
  pose proof (H internal_error _ ltac:(discriminate) eq_refl) as H1.
  pose proof (H not_found _ ltac:(discriminate) eq_refl) as H2.
  cbn in H1, H2. rewrite H1 in H2. discriminate.
Qed.

(** C8. The API key never reaches the wire: two clients constructed
    with different keys and the same url answer every call of the four
    operations with the same outcome and put the same requests on the
    wire. *)
Theorem api_key_not_on_wire service key1 key2 url cl l (w : world unit) :
  ∃ c1 c2,
    nvOCR.init key1 url w = (Return c1, w)
    ∧ nvOCR.init key2 url w = (Return c2, w)
    ∧ fst (run service cl (World c1 l)) = fst (run service cl (World c2 l))
    ∧ sent (snd (run service cl (World c1 l)))
      = sent (snd (run service cl (World c2 l))).
Proof.
  eexists _, _. rewrite !init_eq. do 2 (split; [reflexivity|]).
  set (c1 := nvOCR.mk key1 _ _ _). set (c2 := nvOCR.mk key2 _ _ _).
  rewrite !run_eq. cbn [fst snd self sent]. unfold call_outcome.
  rewrite (call_request_urls c1 c2 cl) by reflexivity.
  split; reflexivity.
Qed.

(** C9. No operation changes the client: after any sequence of calls of
    the four operations, whether they returned or raised, the client
    object, and with it the base URL and API key of the client and of
    its [FilesClient], is what it was before; [upload] called on the
    [FilesClient] itself leaves that one unchanged too. *)
Theorem configuration_unchanged service :
  (∀ cs (w : world nvOCR.t),
     self (run_all service cs w) = self w
     ∧ config (self (run_all service cs w)) = config (self w))
  ∧ (∀ cl (w : world nvOCR.t), self (snd (run service cl w)) = self w)
  ∧ (∀ file purpose (w : world FilesClient.t),
       self (snd (FilesClient.upload service file purpose w)) = self w).
Proof.
  split; [|split].
  - intros cs w. by rewrite run_all_self.
  - intros cl w. by rewrite run_eq.
  - intros file purpose w.
    destruct (lookup_cases file) as [(n & ct & Hn & Hc)|Hmiss].
    + rewrite (upload_present _ _ _ _ _ _ Hn Hc). cbv zeta.
      destruct (service _ _) as [r|e]; [|done].
      destruct (negb _); [done|]. by destruct (response_json r).
    + by rewrite (upload_guarded _ _ _ _ (upload_guard_fires _ Hmiss)).
Qed.

(** * Further properties of the client *)

(** ** [health_check] *)

(** X1. When the service answers the health GET with status 200,
    [health_check] returns the decoded body as it is, whatever its shape
    (no key is looked at, and a list or [null] is accepted as well); a
    body that does not decode raises [JSONDecodeError].  Either way one
    GET request, without parameters or body, has been issued. *)
Theorem health_check_returns_json service (w : world nvOCR.t) r :
  service (sent w) (health_request (nvOCR.url (self w))) = Return r →
  status_code r = 200 →
  nvOCR.health_check service w
  = (match json r with Some v => Return v | None => Raise JSONDecodeError end,
     World (self w)
       (sent w ++ [mkRequest GET (nvOCR.url (self w) +:+ "/health")
                     None None None None])).
Proof.
  intros Hsvc Hst. rewrite health_check_eq. cbv zeta.
  rewrite Hsvc, (status_200 _ Hst). unfold response_json.
  by destruct (json r).
Qed.

Lemma health_check_returns_json_witness :
  nvOCR.health_check (always health_ok) (World a_client [])
  = (Return (PyDict health_json),
     World a_client [mkRequest GET "http://host:8000/health" None None None None]).
Proof.
  apply (health_check_returns_json (always health_ok) (World a_client []) health_ok);
    reflexivity.
Defined.

(** ** Failures of the transport and of the body *)

(** X2. No operation catches what the transport raises: when the
    request a call issued ends in an exception of the transport, the
    call raises that very exception, unwrapped, and nothing is sent a
    second time. *)
Theorem transport_error_propagates service cl (w : world nvOCR.t) req e :
  sent (snd (run service cl w)) = (sent w ++ [req])%list →
  service (sent w) req = Raise e →
  run service cl w = (Raise e, World (self w) (sent w ++ [req])).
Proof.
  rewrite run_eq. cbn [fst snd sent]. intros Hsent Hsvc.
  apply app_inv_head in Hsent. unfold call_outcome.
  destruct (call_request (self w) cl) as [rq|]; [|discriminate].
  injection Hsent as ->. by rewrite Hsvc.
Qed.

Lemma transport_error_propagates_witness :
  run unreachable (ProcessImage an_image "prompt_layout_all_en") (World a_client [])
  = (Raise (ConnectionError "connection refused"),
     World a_client
       [process_image_request "http://host:8000" an_image "prompt_layout_all_en"]).
Proof.
  apply (transport_error_propagates unreachable
           (ProcessImage an_image "prompt_layout_all_en") (World a_client [])
           (process_image_request "http://host:8000" an_image "prompt_layout_all_en")
           (ConnectionError "connection refused")); reflexivity.
Defined.

(** X3. A 200 answer to [upload] whose body is no JSON object makes the
    call raise after the file has gone out: [JSONDecodeError] when the
    body does not decode, [TypeError] when it decodes to a list, a
    string, a number or [null].  The one request stays on the wire. *)
Theorem upload_body_not_an_object service file purpose (w : world FilesClient.t)
    name content r :
  file !! "file_name" = Some name →
  file !! "content" = Some content →
  service (sent w)
    (upload_request (FilesClient.base_url (self w)) name content purpose) = Return r →
  status_code r = 200 →
  (∀ d, json r ≠ Some (PyDict d)) →
  FilesClient.upload service file purpose w
  = (Raise (match json r with Some _ => TypeError | None => JSONDecodeError end),
     World (self w)
       (sent w ++ [upload_request (FilesClient.base_url (self w)) name content purpose])).
Proof.
  intros Hn Hc Hsvc Hst Hobj.
  rewrite (upload_present _ _ _ _ _ _ Hn Hc). cbv zeta.
  rewrite Hsvc, (status_200 _ Hst). unfold response_json.
  destruct (json r) as [v|]; [|done].
  destruct v; try done. by destruct (Hobj d).
Qed.

Lemma upload_body_not_an_object_witness :
  FilesClient.upload (always list_body) a_png "ocr" (World a_files_client [])
  = (Raise TypeError,
     World a_files_client
       [upload_request "http://host:8000" (PyStr "a.png") (PyBytes ten_bytes) "ocr"]).
Proof.
  apply (upload_body_not_an_object (always list_body) a_png "ocr"
           (World a_files_client []) (PyStr "a.png") (PyBytes ten_bytes) list_body);
    try reflexivity.
  intros d. discriminate.
Defined.

(** ** What [upload] reads of its argument *)

(** X4. [upload] looks at the two keys [file_name] and [content] and at
    nothing else of the file mapping: two mappings that agree on these
    two keys, whatever else they hold, give the same outcome and the
    same wire. *)
Theorem upload_reads_two_keys_only service (file1 file2 : gmap string pyval)
    purpose (w : world FilesClient.t) :
  file1 !! "file_name" = file2 !! "file_name" →
  file1 !! "content" = file2 !! "content" →
  FilesClient.upload service file1 purpose w
  = FilesClient.upload service file2 purpose w.
Proof.
  intros Hname Hcontent.
  destruct (lookup_cases file1) as [(n & ct & Hn & Hc)|Hmiss].
  - rewrite (upload_present _ file1 _ _ _ _ Hn Hc).
    rewrite Hname in Hn. rewrite Hcontent in Hc.
    by rewrite (upload_present _ file2 _ _ _ _ Hn Hc).
  - rewrite (upload_guarded _ file1 _ _ (upload_guard_fires _ Hmiss)).
    rewrite Hname, Hcontent in Hmiss.
    by rewrite (upload_guarded _ file2 _ _ (upload_guard_fires _ Hmiss)).
Qed.

Lemma upload_reads_two_keys_only_witness :
  FilesClient.upload (always upload_ok) a_png_tagged "ocr" (World a_files_client [])
  = FilesClient.upload (always upload_ok) a_png "ocr" (World a_files_client []).
Proof.
  apply (upload_reads_two_keys_only (always upload_ok) a_png_tagged a_png "ocr"
           (World a_files_client [])); reflexivity.
Defined.

(** ** Where the prompt mode and the document travel *)

(** X5. [process_uploaded_file] hands the prompt mode to the session
    in the [params=] argument, a mapping with the single key
    [prompt_mode], on a POST without [files=], [data=] or [json=];
    the URL argument is the base URL, the path and [file_id] as given,
    so whatever query text [file_id] holds is in the URL besides.
    [process_image] makes a POST to the fixed path without [params=]
    whose [json=] argument has exactly the two keys [document] and
    [prompt_mode], the document put in as given.  No document is
    refused: an empty one goes out like any other. *)
Theorem prompt_mode_and_document_placement service prompt_mode (w : world nvOCR.t) :
  (∀ file_id, ∃ req q,
     sent (snd (nvOCR.process_uploaded_file service file_id prompt_mode w))
       = (sent w ++ [req])%list
     ∧ req_method req = POST
     ∧ req_url req = nvOCR.url (self w) +:+ "/v1/ocr/process_file/" +:+ file_id
     ∧ req_params req = Some (PyDict q)
     ∧ dom q = {[ "prompt_mode" ]}
     ∧ q !! "prompt_mode" = Some (PyStr prompt_mode)
     ∧ req_files req = None ∧ req_data req = None ∧ req_json req = None)
  ∧ (∀ document, ∃ req body,
     sent (snd (nvOCR.process_image service document prompt_mode w))
       = (sent w ++ [req])%list
     ∧ req_method req = POST
     ∧ req_url req = nvOCR.url (self w) +:+ "/v1/ocr/process_image"
     ∧ req_json req = Some (PyDict body)
     ∧ dom body = {[ "document"; "prompt_mode" ]}
     ∧ body !! "document" = Some (PyDict document)
     ∧ body !! "prompt_mode" = Some (PyStr prompt_mode)
     ∧ req_params req = None ∧ req_files req = None ∧ req_data req = None).
Proof.
  split.
  - intros file_id. eexists (process_file_request _ file_id prompt_mode), _.
    split.
    { rewrite process_uploaded_file_eq. cbv zeta.
      destruct (service _ _) as [r|e]; [destruct (negb _)|]; reflexivity. }
    cbn [process_file_request req_method req_url req_params req_files
         req_data req_json].
    do 3 (split; [reflexivity|]). split; [apply dom_singleton_L|].
    split; [apply lookup_singleton_eq|]. done.
  - intros document. eexists (process_image_request _ document prompt_mode), _.
    split.
    { rewrite process_image_eq. cbv zeta.
      destruct (service _ _) as [r|e]; [destruct (negb _)|]; reflexivity. }
    cbn [process_image_request req_method req_url req_params req_files
         req_data req_json].
    do 3 (split; [reflexivity|]).
    split; [by rewrite dom_insert_L, dom_singleton_L|].
    split; [apply lookup_insert_eq|].
    split; [|done]. rewrite lookup_insert_ne by done. apply lookup_singleton_eq.
Qed.

(** X6. Whether a 200 answer to [process_uploaded_file] or
    [process_image] is JSON plays no part: the result is made from the
    status and the text alone, so two answers with the same status and
    text give the same result whatever [response.json()] would say. *)
Theorem process_never_decodes service1 service2 (w : world nvOCR.t)
    file_id document prompt_mode :
  (∀ req, match service1 (sent w) req, service2 (sent w) req with
          | Return r1, Return r2 =>
              status_code r1 = status_code r2 ∧ text r1 = text r2
          | Raise e1, Raise e2 => e1 = e2
          | _, _ => False
          end) →
  nvOCR.process_uploaded_file service1 file_id prompt_mode w
  = nvOCR.process_uploaded_file service2 file_id prompt_mode w
  ∧ nvOCR.process_image service1 document prompt_mode w
    = nvOCR.process_image service2 document prompt_mode w.
Proof.
  intros Hagree. rewrite !process_uploaded_file_eq, !process_image_eq. cbv zeta.
  split.
  - specialize (Hagree (process_file_request (nvOCR.url (self w)) file_id prompt_mode)).
    destruct (service1 _ _) as [r1|e1], (service2 _ _) as [r2|e2]; try done.
    + destruct Hagree as [-> ->]. reflexivity.
    + by subst.
  - specialize (Hagree (process_image_request (nvOCR.url (self w)) document prompt_mode)).
    destruct (service1 _ _) as [r1|e1], (service2 _ _) as [r2|e2]; try done.
    + destruct Hagree as [-> ->]. reflexivity.
    + by subst.
Qed.

Lemma process_never_decodes_witness :
  nvOCR.process_uploaded_file (always markdown_ok) "f1" "prompt_layout_all_en"
    (World a_client [])
  = nvOCR.process_uploaded_file (always markdown_null) "f1" "prompt_layout_all_en"
      (World a_client [])
  ∧ nvOCR.process_image (always markdown_ok) an_image "prompt_layout_all_en"
      (World a_client [])
    = nvOCR.process_image (always markdown_null) an_image "prompt_layout_all_en"
        (World a_client []).
Proof.
  apply (process_never_decodes (always markdown_ok) (always markdown_null)
           (World a_client []) "f1" an_image "prompt_layout_all_en").
  intros req. split; reflexivity.
Defined.

(** ** Trailing slashes, in general *)

Lemma rstrip_repeat c n : rstrip c (str_repeat c n) = "".
Proof.
  induction n as [|n IH]; [done|].
  cbn [str_repeat rstrip]. by rewrite IH, Ascii.eqb_refl.
Qed.

Lemma rstrip_app_repeat c s n : rstrip c (s +:+ str_repeat c n) = rstrip c s.
Proof.
  induction s as [|a s' IH].
  - rewrite append_nil_l. apply rstrip_repeat.
  - rewrite append_cons. cbn [rstrip]. by rewrite IH.
Qed.

(** X7. Construction does not see how many slashes end the url: a url
    and the same url with any number of [/] appended construct the same
    client; constructing again from the URL a client stores gives that
    client back; and a url of slashes only, or the empty one, leaves
    the empty base URL, so that requests go to the bare paths. *)
Theorem init_ignores_trailing_slashes api_key url n (w : world unit) :
  nvOCR.init api_key (url +:+ str_repeat "/" n) w = nvOCR.init api_key url w
  ∧ (∃ c, nvOCR.init api_key url w = (Return c, w)
          ∧ nvOCR.init api_key (nvOCR.url c) w = (Return c, w))
  ∧ (∃ c, nvOCR.init api_key (str_repeat "/" n) w = (Return c, w)
          ∧ nvOCR.url c = ""
          ∧ ∀ service l,
              map req_url (sent (snd (nvOCR.health_check service (World c l))))
              = (map req_url l ++ ["/health"])%list).
Proof.
  split; [by rewrite !init_eq, rstrip_app_repeat|]. split.
  - eexists. rewrite init_eq. split; [reflexivity|].
    rewrite init_eq. cbn [nvOCR.url].
    by rewrite (rstrip_id _ _ (rstrip_ends "/" url)).
  - eexists. rewrite init_eq, rstrip_repeat. split; [reflexivity|].
    split; [reflexivity|].
    intros service l. rewrite health_check_eq. cbv zeta. cbn [self sent nvOCR.url].
    destruct (service _ _) as [r|e]; [destruct (negb _)|];
      cbn [snd sent]; by rewrite map_app.
Qed.

(** ** The wire after a sequence of calls *)

(** X8. Calls only add to the wire, one request at most each and never
    a second try: after any sequence of calls, whatever the service
    answered or the transport raised, the wire is the wire before
    followed by the request of each call in order, where an [upload] of
    a file without both keys contributes none. *)
Theorem wire_after_calls service cs (w : world nvOCR.t) :
  sent (run_all service cs w)
  = (sent w ++ omap (call_request (self w)) cs)%list
  ∧ (length (sent (run_all service cs w)) ≤ length (sent w) + length cs)%nat.
Proof.
  assert (Hwire : ∀ cs (w : world nvOCR.t),
            sent (run_all service cs w)
            = (sent w ++ omap (call_request (self w)) cs)%list).
  { clear. intros cs. induction cs as [|cl cs IH]; intros w.
    - cbn. by rewrite app_nil_r.
    - cbn [run_all]. rewrite IH, run_eq. cbn [snd self sent omap list_omap].
      rewrite <- app_assoc. f_equal.
      by destruct (call_request (self w) cl). }
  split; [apply Hwire|]. rewrite Hwire, length_app.
  apply Nat.add_le_mono_l.
  clear. induction cs as [|cl cs IH]; [done|].
  cbn [omap list_omap]. destruct (call_request (self w) cl); cbn [length]; lia.
Qed.
